(** * PyObjectSlot: the tagged PyObject word of a tensor and its teardown

    A shallow embedding of [c10/core/impl/PyObjectSlot.cpp].

    The slot holds two atomics: [pyobj_interpreter_], a nullable
    [PyInterpreter*], and [pyobj_], a [uintptr_t] whose bit 0 says whether the
    tensor owns a reference to the PyObject and whose other bits are the
    PyObject's address.

    The embedding is sequential: one thread runs the member functions, so an
    atomic load reads the field and an atomic store writes it, and the memory
    orders of the source are not represented.  The one place where the
    source's control flow depends on something outside the thread is
    [compare_exchange_weak], which may fail although the word has the expected
    value; an oracle (one boolean per attempt) decides those failures.

    Calls into the interpreter ([decref]) are recorded in a trace. *)

From Stdlib Require Import ZArith List Bool String Lia.
From Equations Require Import Equations.
Import ListNotations.

Local Open Scope Z_scope.

(** ** Machine words and pointers *)

(** [uintptr_t] on an LP64 target. *)
Definition uintptr_bits : Z := 64.
Definition uintptr_modulus : Z := 2 ^ uintptr_bits.

(** Conversion of an integer value to [uintptr_t]. *)
Definition to_uintptr (x : Z) : Z := x mod uintptr_modulus.

(** A value a [uintptr_t] object can hold. *)
Definition is_uintptr (x : Z) : Prop := 0 <= x < uintptr_modulus.

(** The constant [~0x1ULL]: the complement of 1 in 64 bits. *)
Definition untag_mask : Z := Z.lnot 1 mod 2 ^ 64.

(** A [PyInterpreter*] or [PyObject*], as its address. *)
Definition ptr : Type := Z.
Definition nullptr : ptr := 0.

(** ** The slot, the interpreter calls, the outcomes *)

Record PyObjectSlot : Type := mkSlot {
  pyobj_interpreter_ : ptr;   (* std::atomic<PyInterpreter*> *)
  pyobj_ : Z                  (* std::atomic<uintptr_t> *)
}.

(** A call of [decref(pyobj, has_pyobj_slot)] on an interpreter. *)
Inductive Event : Type :=
| Decref (interpreter : ptr) (pyobj : ptr) (has_pyobj_slot : bool).

Record World : Type := mkWorld {
  slot : PyObjectSlot;
  calls : list Event          (* interpreter calls so far, oldest first *)
}.

(** How a member function ends: it returns, or one of the two macros throws. *)
Inductive Outcome (A : Type) : Type :=
| Returns (a : A)
| InternalAssertFailed              (* TORCH_INTERNAL_ASSERT(cond) with cond false *)
| CheckFailed (msg : string).       (* TORCH_CHECK(false, msg) *)
Arguments Returns {A} a.
Arguments InternalAssertFailed {A}.
Arguments CheckFailed {A} msg.

(** ** A state and error monad for member functions *)

Definition M (A : Type) : Type := World -> Outcome A * World.

Definition ret {A} (a : A) : M A := fun w => (Returns a, w).

Definition bind {A B} (m : M A) (k : A -> M B) : M B :=
  fun w =>
    match m w with
    | (Returns a, w') => k a w'
    | (InternalAssertFailed, w') => (InternalAssertFailed, w')
    | (CheckFailed msg, w') => (CheckFailed msg, w')
    end.

Declare Scope slot_scope.
Delimit Scope slot_scope with slot.
Notation "x <- m ;; k" := (bind m (fun x => k))
  (at level 61, m at next level, right associativity) : slot_scope.
Notation "m ;; k" := (bind m (fun _ => k))
  (at level 61, right associativity) : slot_scope.
Local Open Scope slot_scope.

Definition TORCH_INTERNAL_ASSERT (cond : bool) : M unit :=
  fun w => if cond then (Returns tt, w) else (InternalAssertFailed, w).

(** [TORCH_CHECK(false, msg)]: the condition is the literal [false], so the
    macro throws and no code after it is reached. *)
Definition TORCH_CHECK_false {A} (msg : string) : M A :=
  fun w => (CheckFailed msg, w).

(** ** The atomics *)

(** The world after a write of [desired] to [pyobj_]. *)
Definition set_pyobj_ (desired : Z) (w : World) : World :=
  mkWorld (mkSlot (pyobj_interpreter_ (slot w)) desired) (calls w).

Definition pyobj_interpreter__load : M ptr :=
  fun w => (Returns (pyobj_interpreter_ (slot w)), w).

Definition pyobj__load : M Z :=
  fun w => (Returns (pyobj_ (slot w)), w).

Definition pyobj__store (desired : Z) : M unit :=
  fun w => (Returns tt, set_pyobj_ desired w).

(** [pyobj_.compare_exchange_weak(expected, desired, ...)]: the result is the
    returned boolean and the new value of the reference argument [expected].
    When the word equals [expected] the exchange happens unless the attempt
    fails spuriously; when it differs, [expected] receives the word. *)
Definition pyobj__compare_exchange_weak
    (spurious : bool) (expected desired : Z) : M (bool * Z) :=
  fun w =>
    if pyobj_ (slot w) =? expected then
      if spurious then (Returns (false, expected), w)
      else (Returns (true, expected), set_pyobj_ desired w)
    else (Returns (false, pyobj_ (slot w)), w).

(** The call through the interpreter's vtable. *)
Definition decref (interpreter : ptr) (pyobj : ptr) (has_pyobj_slot : bool)
  : M unit :=
  fun w =>
    (Returns tt,
     mkWorld (slot w) (calls w ++ [Decref interpreter pyobj has_pyobj_slot])).

(** ** The member functions *)

(** [PyObjectSlot::PyObjectSlot()]. *)
Definition PyObjectSlot_ctor : PyObjectSlot := mkSlot nullptr 0.

(** [PyObjectSlot::pyobj_interpreter()]. *)
Definition pyobj_interpreter : M ptr := pyobj_interpreter__load.

(** [PyObjectSlot::_unchecked_untagged_pyobj()]. *)
Definition _unchecked_untagged_pyobj : M ptr :=
  word <- pyobj__load ;;
  ret (Z.land word untag_mask).

(** The message of the [TORCH_CHECK] in [load_pyobj_interpreter]. *)
Definition no_interpreter_msg : string :=
  "cannot access PyObject for Tensor - no interpreter set".

(** [PyObjectSlot::load_pyobj_interpreter()]; the reference it returns is
    identified with the address of the interpreter. *)
Definition load_pyobj_interpreter : M ptr :=
  interpreter <- pyobj_interpreter__load ;;
  if negb (interpreter =? nullptr) then ret interpreter
  else TORCH_CHECK_false no_interpreter_msg.

(** [PyObjectSlot::owns_pyobj()]. *)
Definition owns_pyobj : M bool :=
  word <- pyobj__load ;;
  ret (negb (Z.land word 1 =? 0)).

(** The word [set_owns_pyobj] wants to install:
    [(expected & ~0x1ULL) | (b ? 1 : 0)], converted to [uintptr_t]. *)
Definition retagged (expected : Z) (b : bool) : Z :=
  to_uintptr (Z.lor (Z.land expected untag_mask) (if b then 1 else 0)).

Definition inspect {A} (a : A) : {x : A | a = x} := exist _ a eq_refl.

(** What is left of the do-while loop: two units per attempt the oracle still
    decides, one more when the word differs from [expected]. *)
Definition loop_measure (oracle : list bool) (expected : Z) (w : World) : nat :=
  (2 * List.length oracle
   + (if (pyobj_ (slot w) =? expected)%Z then 0 else 1))%nat.

(** The body of [set_owns_pyobj] after the first load: the do-while loop.
    Attempt number [i] fails spuriously when the oracle's entry [i] is
    [true]; attempts beyond the oracle do not fail spuriously. *)
Equations? set_owns_pyobj_loop
    (oracle : list bool) (b : bool) (expected : Z) (w : World)
  : Outcome unit * World by wf (loop_measure oracle expected w) lt :=
set_owns_pyobj_loop oracle b expected w
  with inspect (pyobj__compare_exchange_weak
                  (hd false oracle) expected (retagged expected b) w) := {
  | exist _ (Returns (true, _), w') _ => (Returns tt, w')
  | exist _ (Returns (false, expected'), w') _ =>
      set_owns_pyobj_loop (tl oracle) b expected' w'
  | exist _ (InternalAssertFailed, w') _ => (InternalAssertFailed, w')
  | exist _ (CheckFailed msg, w') _ => (CheckFailed msg, w') }.
Proof.
  unfold pyobj__compare_exchange_weak, loop_measure in *.
  destruct (pyobj_ (slot w) =? expected) eqn:Hsame.
  - destruct oracle as [|[|] rest]; simpl in e; inversion e; subst.
    rewrite Hsame. simpl. lia.
  - inversion e; subst. rewrite Z.eqb_refl.
    destruct oracle; simpl; lia.
Qed.

(** [PyObjectSlot::set_owns_pyobj(bool b)]. *)
Definition set_owns_pyobj (oracle : list bool) (b : bool) : M unit :=
  expected <- pyobj__load ;;
  set_owns_pyobj_loop oracle b expected.

(** [PyObjectSlot::maybe_destroy_pyobj()]. *)
Definition maybe_destroy_pyobj : M unit :=
  owns <- owns_pyobj ;;
  if owns then
    interpreter <- pyobj_interpreter__load ;;
    TORCH_INTERNAL_ASSERT (negb (interpreter =? nullptr)) ;;
    word <- pyobj__load ;;
    TORCH_INTERNAL_ASSERT (negb (word =? 0)) ;;
    interpreter <- pyobj_interpreter__load ;;
    pyobj <- _unchecked_untagged_pyobj ;;
    decref interpreter pyobj true ;;
    pyobj__store 0
  else ret tt.

(** [PyObjectSlot::~PyObjectSlot()]. *)
Definition PyObjectSlot_dtor : M unit := maybe_destroy_pyobj.

(** ** Sequences of calls on one slot *)

(** What a call hands back to its caller. *)
Inductive Value : Type :=
| VVoid
| VBool (b : bool)
| VPtr (p : ptr).

(** The member functions of the unit, the constructor and destructor apart.
    A call of [set_owns_pyobj] carries the oracle of its loop. *)
Inductive Op : Type :=
| op_maybe_destroy_pyobj
| op_pyobj_interpreter
| op_unchecked_untagged_pyobj
| op_load_pyobj_interpreter
| op_owns_pyobj
| op_set_owns_pyobj (oracle : list bool) (b : bool).

Definition fmap {A B} (f : A -> B) (m : M A) : M B :=
  a <- m ;; ret (f a).

Definition call (op : Op) : M Value :=
  match op with
  | op_maybe_destroy_pyobj => fmap (fun _ => VVoid) maybe_destroy_pyobj
  | op_pyobj_interpreter => fmap VPtr pyobj_interpreter
  | op_unchecked_untagged_pyobj => fmap VPtr _unchecked_untagged_pyobj
  | op_load_pyobj_interpreter => fmap VPtr load_pyobj_interpreter
  | op_owns_pyobj => fmap VBool owns_pyobj
  | op_set_owns_pyobj oracle b => fmap (fun _ => VVoid) (set_owns_pyobj oracle b)
  end.

(** [maybe_destroy_pyobj] is the teardown; the other five are what the owner
    of the slot calls during the slot's life. *)
Definition is_teardown (op : Op) : bool :=
  match op with
  | op_maybe_destroy_pyobj => true
  | _ => false
  end.

Definition no_teardown (ops : list Op) : bool :=
  forallb (fun op => negb (is_teardown op)) ops.

(** The calls of [ops] in order.  A call that throws leaves the world as it
    was at the throw; the caller catches and goes on. *)
Fixpoint run (ops : list Op) (w : World) : World :=
  match ops with
  | [] => w
  | op :: rest => run rest (snd (call op w))
  end.

(** A slot right after construction, no interpreter call made yet. *)
Definition fresh_world : World := mkWorld PyObjectSlot_ctor [].

(** A slot bound to the interpreter at [interpreter], holding [word]. *)
Definition bound_world (interpreter : ptr) (word : Z) : World :=
  mkWorld (mkSlot interpreter word) [].

(** A life in which the owner takes ownership (the first two attempts of the
    exchange fail spuriously) and reads the slot. *)
Definition owning_life : list Op :=
  [op_load_pyobj_interpreter; op_set_owns_pyobj [true; true] true;
   op_owns_pyobj; op_unchecked_untagged_pyobj].

(** A life that goes through every member function, the teardown included. *)
Definition busy_life : list Op :=
  [op_set_owns_pyobj [true] true; op_owns_pyobj; op_pyobj_interpreter;
   op_load_pyobj_interpreter; op_unchecked_untagged_pyobj;
   op_maybe_destroy_pyobj; op_set_owns_pyobj [] true;
   op_set_owns_pyobj [false] false].

(** The four member functions that only load from the slot. *)
Definition is_read (op : Op) : bool :=
  match op with
  | op_pyobj_interpreter | op_unchecked_untagged_pyobj
  | op_load_pyobj_interpreter | op_owns_pyobj => true
  | op_maybe_destroy_pyobj | op_set_owns_pyobj _ _ => false
  end.

(** The calls [set_owns_pyobj(true)] of a sequence, counted. *)
Definition takes_ownership (op : Op) : bool :=
  match op with
  | op_set_owns_pyobj _ true => true
  | _ => false
  end.

Definition ownership_taken (ops : list Op) : nat :=
  List.length (filter takes_ownership ops).

(** The references the slot holds according to [owns_pyobj]: one or none. *)
Definition owned_references (w : World) : nat :=
  match fst (owns_pyobj w) with
  | Returns true => 1
  | _ => 0
  end.

(** A [decref] as the teardown of a slot bound to [interpreter] makes it:
    through that interpreter, which is not null, on an address whose tag bit
    is clear, with [has_pyobj_slot] true. *)
Definition teardown_decref (interpreter : ptr) (e : Event) : Prop :=
  match e with
  | Decref through pyobj has_pyobj_slot =>
      through = interpreter /\ through <> nullptr
      /\ Z.testbit pyobj 0 = false /\ has_pyobj_slot = true
  end.

(** A life of reads only; on an unbound slot the third one throws. *)
Definition reading_life : list Op :=
  [op_owns_pyobj; op_unchecked_untagged_pyobj; op_load_pyobj_interpreter;
   op_pyobj_interpreter; op_owns_pyobj].

(** * Properties *)

(** ** The tag bit and the address bits *)

Lemma untag_mask_value : untag_mask = 2 ^ 64 - 2.
Proof. reflexivity. Qed.

Lemma untag_mask_bits i :
  Z.testbit untag_mask i = (1 <=? i) && (i <? 64).
Proof.
  destruct (Z.ltb_spec i 0) as [Hneg | Hpos].
  - rewrite Z.testbit_neg_r by assumption.
    destruct (Z.leb_spec 1 i); [lia | reflexivity].
  - unfold untag_mask.
    destruct (Z.ltb_spec i 64) as [Hlo | Hhi].
    + rewrite Z.mod_pow2_bits_low by lia.
      rewrite Z.lnot_spec by assumption.
      change 1 with (2 ^ 0) at 1. rewrite Z.pow2_bits_eqb by lia.
      rewrite andb_true_r.
      destruct (Z.eqb_spec 0 i), (Z.leb_spec 1 i); simpl; try reflexivity; lia.
    + rewrite Z.mod_pow2_bits_high by lia. now rewrite andb_false_r.
Qed.

Lemma tag_bits (b : bool) i :
  Z.testbit (if b then 1 else 0) i = b && (i =? 0).
Proof.
  destruct b; simpl andb.
  - change 1 with (2 ^ 0) at 1.
    destruct (Z.ltb_spec i 0).
    + rewrite Z.testbit_neg_r by assumption. destruct (Z.eqb_spec i 0); [lia | reflexivity].
    + rewrite Z.pow2_bits_eqb by lia. apply Z.eqb_sym.
  - apply Z.testbit_0_l.
Qed.

Lemma uintptr_bits_high x i : is_uintptr x -> 64 <= i -> Z.testbit x i = false.
Proof.
  intros Hx Hi. rewrite <- (Z.mod_small x (2 ^ 64)) by exact Hx.
  apply Z.mod_pow2_bits_high. lia.
Qed.

Lemma to_uintptr_range x : is_uintptr (to_uintptr x).
Proof. apply Z.mod_pos_bound. reflexivity. Qed.

Lemma retagged_range x b : is_uintptr (retagged x b).
Proof. apply to_uintptr_range. Qed.

Lemma retagged_bits x b i :
  0 <= i ->
  Z.testbit (retagged x b) i
  = if i =? 0 then b else Z.testbit x i && (i <? 64).
Proof.
  intros Hi. unfold retagged, to_uintptr, uintptr_modulus, uintptr_bits.
  destruct (Z.ltb_spec i 64) as [Hlo | Hhi].
  - rewrite Z.mod_pow2_bits_low by lia.
    rewrite Z.lor_spec, Z.land_spec, untag_mask_bits, tag_bits.
    destruct (Z.eqb_spec i 0) as [-> | Hnz].
    + simpl. rewrite andb_false_r, andb_true_r. reflexivity.
    + destruct (Z.leb_spec 1 i), (Z.ltb_spec i 64); try lia.
      now rewrite !andb_true_r, andb_false_r, orb_false_r.
  - rewrite Z.mod_pow2_bits_high by lia.
    destruct (Z.eqb_spec i 0); [lia | now rewrite andb_false_r].
Qed.

Lemma owns_bit x : negb (Z.land x 1 =? 0) = Z.testbit x 0.
Proof.
  change 1 with (Z.ones 1). rewrite Z.land_ones by lia.
  change (2 ^ 1) with 2. rewrite <- Z.bit0_mod.
  destruct (Z.testbit x 0); reflexivity.
Qed.

Lemma untag_clearbit x : is_uintptr x -> Z.land x untag_mask = Z.clearbit x 0.
Proof.
  intros Hx. apply Z.bits_inj'. intros i Hi.
  rewrite Z.land_spec, untag_mask_bits, Z.clearbit_eqb by lia.
  destruct (Z.ltb_spec i 64).
  - destruct (Z.eqb_spec 0 i), (Z.leb_spec 1 i); try lia; reflexivity.
  - rewrite (uintptr_bits_high x i) by assumption. reflexivity.
Qed.

Lemma untag_bit0 x : Z.testbit (Z.land x untag_mask) 0 = false.
Proof. rewrite Z.land_spec, untag_mask_bits. apply andb_false_r. Qed.

Lemma untag_retagged x b :
  Z.land (retagged x b) untag_mask = Z.land x untag_mask.
Proof.
  apply Z.bits_inj'. intros i Hi.
  rewrite !Z.land_spec, untag_mask_bits, retagged_bits by assumption.
  destruct (Z.eqb_spec i 0) as [-> | Hnz].
  - simpl. now rewrite !andb_false_r.
  - destruct (Z.ltb_spec i 64); [now rewrite !andb_true_r | now rewrite !andb_false_r].
Qed.

Lemma retagged_idempotent x b : retagged (retagged x b) b = retagged x b.
Proof.
  apply Z.bits_inj'. intros i Hi.
  rewrite (retagged_bits (retagged x b)), retagged_bits by assumption.
  destruct (Z.eqb_spec i 0); [reflexivity |].
  rewrite <- andb_assoc, andb_diag. reflexivity.
Qed.

Lemma retagged_same x b :
  is_uintptr x -> Z.testbit x 0 = b -> retagged x b = x.
Proof.
  intros Hx Hb. apply Z.bits_inj'. intros i Hi.
  rewrite retagged_bits by assumption.
  destruct (Z.eqb_spec i 0) as [-> | Hnz]; [now symmetry |].
  destruct (Z.ltb_spec i 64).
  - apply andb_true_r.
  - rewrite (uintptr_bits_high x i) by assumption. reflexivity.
Qed.

Lemma split_word x :
  is_uintptr x ->
  x = Z.lor (Z.land x untag_mask) (Z.b2z (negb (Z.land x 1 =? 0))).
Proof.
  intros Hx. rewrite owns_bit. apply Z.bits_inj'. intros i Hi.
  rewrite Z.lor_spec, Z.land_spec, untag_mask_bits.
  destruct (Z.eqb_spec i 0) as [-> | Hnz].
  - rewrite Z.b2z_bit0. simpl. now rewrite andb_false_r.
  - assert (Hb: Z.testbit (Z.b2z (Z.testbit x 0)) i = false).
    { destruct (Z.testbit x 0); simpl.
      - change 1 with (2 ^ 0). rewrite Z.pow2_bits_eqb by lia.
        destruct (Z.eqb_spec 0 i); [lia | reflexivity].
      - apply Z.testbit_0_l. }
    rewrite Hb, orb_false_r.
    destruct (Z.leb_spec 1 i); try lia.
    destruct (Z.ltb_spec i 64); [now rewrite andb_true_r |].
    rewrite (uintptr_bits_high x i) by assumption. reflexivity.
Qed.

(** ** What each member function does to the world *)

Lemma world_eta (w : World) :
  mkWorld (mkSlot (pyobj_interpreter_ (slot w)) (pyobj_ (slot w))) (calls w) = w.
Proof. destruct w as [[interpreter word] trace]. reflexivity. Qed.

Lemma owns_pyobj_run (w : World) :
  owns_pyobj w = (Returns (Z.testbit (pyobj_ (slot w)) 0), w).
Proof. unfold owns_pyobj, bind, pyobj__load, ret. now rewrite owns_bit. Qed.

Lemma unchecked_untagged_pyobj_run (w : World) :
  _unchecked_untagged_pyobj w
  = (Returns (Z.land (pyobj_ (slot w)) untag_mask), w).
Proof. reflexivity. Qed.

Lemma load_pyobj_interpreter_run (w : World) :
  load_pyobj_interpreter w
  = if pyobj_interpreter_ (slot w) =? nullptr
    then (CheckFailed no_interpreter_msg, w)
    else (Returns (pyobj_interpreter_ (slot w)), w).
Proof.
  unfold load_pyobj_interpreter, bind, pyobj_interpreter__load.
  destruct (pyobj_interpreter_ (slot w) =? nullptr); reflexivity.
Qed.

(** The loop always ends, and what it installs is computed from the word it
    finds in the slot, whatever [expected] it was entered with and whatever
    the oracle says. *)
Lemma set_owns_pyobj_loop_run oracle b expected w :
  set_owns_pyobj_loop oracle b expected w
  = (Returns tt, set_pyobj_ (retagged (pyobj_ (slot w)) b) w).
Proof.
  funelim (set_owns_pyobj_loop oracle b expected w);
    try clear Heqcall;
    repeat match goal with
           | Hsig : sigmaI _ _ _ = sigmaI _ _ _ |- _ => clear Hsig
           end;
    unfold pyobj__compare_exchange_weak in e;
    destruct (pyobj_ (slot w) =? expected) eqn:Hsame;
    try destruct (hd false oracle);
    inversion e; subst.
  all: try assumption.
  apply Z.eqb_eq in Hsame. now rewrite Hsame.
Qed.

Lemma set_owns_pyobj_run oracle b w :
  set_owns_pyobj oracle b w
  = (Returns tt, set_pyobj_ (retagged (pyobj_ (slot w)) b) w).
Proof.
  unfold set_owns_pyobj, bind, pyobj__load.
  apply set_owns_pyobj_loop_run.
Qed.

Lemma maybe_destroy_pyobj_run (w : World) :
  maybe_destroy_pyobj w
  = if Z.testbit (pyobj_ (slot w)) 0 then
      if pyobj_interpreter_ (slot w) =? nullptr then (InternalAssertFailed, w)
      else (Returns tt,
            mkWorld (mkSlot (pyobj_interpreter_ (slot w)) 0)
              (calls w ++ [Decref (pyobj_interpreter_ (slot w))
                             (Z.land (pyobj_ (slot w)) untag_mask) true]))
    else (Returns tt, w).
Proof.
  unfold maybe_destroy_pyobj. unfold bind at 1. rewrite owns_pyobj_run.
  destruct (Z.testbit (pyobj_ (slot w)) 0) eqn:Hown; [|reflexivity].
  unfold bind, pyobj_interpreter__load, TORCH_INTERNAL_ASSERT, pyobj__load.
  destruct (pyobj_interpreter_ (slot w) =? nullptr); simpl; [reflexivity|].
  destruct (Z.eqb_spec (pyobj_ (slot w)) 0) as [Hzero | _]; simpl.
  - rewrite Hzero in Hown. discriminate.
  - reflexivity.
Qed.

Lemma call_world (op : Op) (w : World) :
  snd (call op w)
  = match op with
    | op_maybe_destroy_pyobj => snd (maybe_destroy_pyobj w)
    | op_set_owns_pyobj _ b => set_pyobj_ (retagged (pyobj_ (slot w)) b) w
    | _ => w
    end.
Proof.
  destruct op; unfold call, fmap; unfold bind at 1.
  - destruct (maybe_destroy_pyobj w) as [[u| |msg] w']; reflexivity.
  - reflexivity.
  - reflexivity.
  - rewrite load_pyobj_interpreter_run.
    destruct (pyobj_interpreter_ (slot w) =? nullptr); reflexivity.
  - rewrite owns_pyobj_run. reflexivity.
  - rewrite set_owns_pyobj_run. reflexivity.
Qed.

(** The teardown leaves the interpreter field alone, adds at most one call,
    and leaves a word in the range of [uintptr_t] in it. *)
Lemma maybe_destroy_pyobj_world (w : World) :
  snd (maybe_destroy_pyobj w) = w
  \/ (Z.testbit (pyobj_ (slot w)) 0 = true
      /\ snd (maybe_destroy_pyobj w)
         = mkWorld (mkSlot (pyobj_interpreter_ (slot w)) 0)
             (calls w ++ [Decref (pyobj_interpreter_ (slot w))
                            (Z.land (pyobj_ (slot w)) untag_mask) true])).
Proof.
  rewrite maybe_destroy_pyobj_run.
  destruct (Z.testbit (pyobj_ (slot w)) 0); [|now left].
  destruct (pyobj_interpreter_ (slot w) =? nullptr); [now left | now right].
Qed.

Lemma call_keeps_interpreter (op : Op) (w : World) :
  pyobj_interpreter_ (slot (snd (call op w))) = pyobj_interpreter_ (slot w).
Proof.
  rewrite call_world. destruct op; try reflexivity.
  destruct (maybe_destroy_pyobj_world w) as [-> | [_ ->]]; reflexivity.
Qed.

Lemma call_keeps_range (op : Op) (w : World) :
  is_uintptr (pyobj_ (slot w)) -> is_uintptr (pyobj_ (slot (snd (call op w)))).
Proof.
  intros Hw. rewrite call_world. destruct op; try assumption.
  - destruct (maybe_destroy_pyobj_world w) as [-> | [_ ->]];
      [assumption | simpl; unfold is_uintptr; split; [lia | reflexivity]].
  - apply retagged_range.
Qed.

(** Outside the teardown nothing calls the interpreter. *)
Lemma call_keeps_calls (op : Op) (w : World) :
  is_teardown op = false -> calls (snd (call op w)) = calls w.
Proof.
  intros Hop. rewrite call_world. destruct op; try reflexivity. discriminate.
Qed.

Lemma run_keeps_calls (ops : list Op) (w : World) :
  no_teardown ops = true -> calls (run ops w) = calls w.
Proof.
  revert w. induction ops as [|op rest IH]; intros w Hops; [reflexivity|].
  simpl in Hops. apply andb_true_iff in Hops as [Hop Hrest].
  apply negb_true_iff in Hop.
  simpl. rewrite IH by assumption. now apply call_keeps_calls.
Qed.

(** A second teardown finds the tag cleared, or fails the same assertion as
    the first: it makes no call. *)
Lemma teardown_again_is_silent (w : World) :
  calls (snd (maybe_destroy_pyobj (snd (maybe_destroy_pyobj w))))
  = calls (snd (maybe_destroy_pyobj w)).
Proof.
  destruct (maybe_destroy_pyobj_world w) as [Hsame | [_ Hcleared]].
  - rewrite Hsame, Hsame. reflexivity.
  - rewrite Hcleared, maybe_destroy_pyobj_run. reflexivity.
Qed.

(** ** Teardown *)

(** C1.  Take any world, run any sequence of the five calls an owner makes
    ([pyobj_interpreter], [_unchecked_untagged_pyobj],
    [load_pyobj_interpreter], [owns_pyobj], [set_owns_pyobj]) and then the
    destructor.  The interpreter calls made over that whole life are at most
    one [decref]; there is none when [owns_pyobj] answers false just before
    the destructor; and a further [maybe_destroy_pyobj] after the destructor
    makes no call. *)
Theorem teardown_runs_once (ops : list Op) (w0 : World) :
  no_teardown ops = true ->
  (exists released,
      calls (snd (PyObjectSlot_dtor (run ops w0))) = calls w0 ++ released
      /\ (List.length released <= 1)%nat
      /\ (fst (owns_pyobj (run ops w0)) = Returns false -> released = []))
  /\ calls (snd (maybe_destroy_pyobj (snd (PyObjectSlot_dtor (run ops w0)))))
     = calls (snd (PyObjectSlot_dtor (run ops w0))).
Proof.
  intros Hops. split; [|apply teardown_again_is_silent].
  unfold PyObjectSlot_dtor. rewrite owns_pyobj_run. cbn [fst].
  destruct (maybe_destroy_pyobj_world (run ops w0)) as [-> | [Hown ->]].
  - exists []. rewrite app_nil_r, run_keeps_calls by assumption. auto.
  - eexists. cbn [calls]. rewrite run_keeps_calls by assumption.
    split; [reflexivity|]. split; [cbn [List.length]; lia|].
    rewrite Hown. discriminate.
Qed.

Lemma teardown_runs_once_witness :
  no_teardown owning_life = true
  /\ ((exists released,
          calls (snd (PyObjectSlot_dtor
                        (run owning_life (bound_world 0x7f00 0x1000))))
          = calls (bound_world 0x7f00 0x1000) ++ released
          /\ (List.length released <= 1)%nat
          /\ (fst (owns_pyobj (run owning_life (bound_world 0x7f00 0x1000)))
              = Returns false -> released = []))
      /\ calls (snd (maybe_destroy_pyobj
                       (snd (PyObjectSlot_dtor
                               (run owning_life
                                  (bound_world 0x7f00 0x1000))))))
         = calls (snd (PyObjectSlot_dtor
                         (run owning_life (bound_world 0x7f00 0x1000))))).
Proof.
  split; [reflexivity|].
  apply (teardown_runs_once owning_life (bound_world 0x7f00 0x1000)).
  reflexivity.
Defined.

(** Scenario A of the specification: a slot that is constructed and destroyed
    with nothing bound makes no call. *)
Example scenario_A :
  PyObjectSlot_dtor fresh_world = (Returns tt, fresh_world).
Proof. reflexivity. Qed.

(** Scenario C: ownership taken and given back before destruction. *)
Example scenario_C :
  calls (snd (PyObjectSlot_dtor
                (run [op_set_owns_pyobj [] true; op_set_owns_pyobj [] false]
                   (bound_world 0x7f00 0x2000))))
  = [].
Proof. reflexivity. Qed.

(** The restriction of C1 to the owner's five calls matters: a
    [maybe_destroy_pyobj] in mid-life followed by [set_owns_pyobj(true)]
    arms the destructor again. *)
Example teardown_in_mid_life_rearms :
  calls (snd (PyObjectSlot_dtor
                (run [op_maybe_destroy_pyobj; op_set_owns_pyobj [] true]
                   (bound_world 0x7f00 0x1001))))
  = [Decref 0x7f00 0x1000 true; Decref 0x7f00 0 true].
Proof. reflexivity. Qed.

(** C2, at the input where the code departs from it.  A slot bound to an
    interpreter whose address bits are zero, after [set_owns_pyobj(true)]:
    the destructor does not fail an assertion, it returns after calling
    [decref] with a null PyObject. *)
Theorem teardown_with_zero_address_calls_decref :
  run [op_set_owns_pyobj [] true] (bound_world 0x7f00 0)
  = bound_world 0x7f00 1
  /\ PyObjectSlot_dtor (bound_world 0x7f00 1)
     = (Returns tt, mkWorld (mkSlot 0x7f00 0) [Decref 0x7f00 nullptr true]).
Proof. split; reflexivity. Qed.

(** The owning path of the teardown, in terms of the three public reads. *)
Lemma maybe_destroy_pyobj_owning (w : World) (pyobj : ptr) :
  fst (owns_pyobj w) = Returns true ->
  fst (pyobj_interpreter w) <> Returns nullptr ->
  fst (_unchecked_untagged_pyobj w) = Returns pyobj ->
  maybe_destroy_pyobj w
  = (Returns tt,
     mkWorld (mkSlot (pyobj_interpreter_ (slot w)) 0)
       (calls w ++ [Decref (pyobj_interpreter_ (slot w)) pyobj true])).
Proof.
  rewrite owns_pyobj_run, unchecked_untagged_pyobj_run.
  unfold pyobj_interpreter, pyobj_interpreter__load. cbn [fst].
  intros Hown Hbound Hpyobj.
  assert (Hbit : Z.testbit (pyobj_ (slot w)) 0 = true) by congruence.
  assert (Haddr : Z.land (pyobj_ (slot w)) untag_mask = pyobj) by congruence.
  rewrite maybe_destroy_pyobj_run, Hbit, Haddr.
  destruct (Z.eqb_spec (pyobj_interpreter_ (slot w)) nullptr) as [Hnull | _].
  - rewrite Hnull in Hbound. now contradiction Hbound.
  - reflexivity.
Qed.

(** C4.  When [owns_pyobj] answers true and an interpreter is bound, the
    destructor returns having made exactly one call, [decref] on the bound
    interpreter with the result of [_unchecked_untagged_pyobj] and
    [has_pyobj_slot = true], and leaves the word 0 in [pyobj_]. *)
Theorem owning_teardown_releases_then_clears (w : World) (pyobj : ptr) :
  fst (owns_pyobj w) = Returns true ->
  fst (pyobj_interpreter w) <> Returns nullptr ->
  fst (_unchecked_untagged_pyobj w) = Returns pyobj ->
  PyObjectSlot_dtor w
  = (Returns tt,
     mkWorld (mkSlot (pyobj_interpreter_ (slot w)) 0)
       (calls w ++ [Decref (pyobj_interpreter_ (slot w)) pyobj true])).
Proof.
  unfold PyObjectSlot_dtor. apply maybe_destroy_pyobj_owning.
Qed.

(** Scenario B of the specification is an instance: address [0x1000], then
    [set_owns_pyobj(true)], then destruction. *)
Lemma owning_teardown_releases_then_clears_witness :
  (fst (owns_pyobj (run [op_set_owns_pyobj [] true] (bound_world 0x7f00 0x1000)))
   = Returns true
   /\ fst (pyobj_interpreter
             (run [op_set_owns_pyobj [] true] (bound_world 0x7f00 0x1000)))
      <> Returns nullptr
   /\ fst (_unchecked_untagged_pyobj
             (run [op_set_owns_pyobj [] true] (bound_world 0x7f00 0x1000)))
      = Returns 0x1000)
  /\ PyObjectSlot_dtor
       (run [op_set_owns_pyobj [] true] (bound_world 0x7f00 0x1000))
     = (Returns tt, mkWorld (mkSlot 0x7f00 0) [Decref 0x7f00 0x1000 true]).
Proof.
  split.
  - split; [reflexivity|]. split; [discriminate | reflexivity].
  - apply (owning_teardown_releases_then_clears
             (run [op_set_owns_pyobj [] true] (bound_world 0x7f00 0x1000))
             0x1000);
      [reflexivity | discriminate | reflexivity].
Defined.

(** C8.  The second assertion of the teardown looks at the whole word.  In a
    slot with a bound interpreter where [owns_pyobj] answers true and
    [_unchecked_untagged_pyobj] answers null, the word is 1, the assertion
    [pyobj_ != 0] passes, and the teardown returns after calling [decref]
    with the null address. *)
Theorem teardown_asserts_on_whole_word (w : World) :
  is_uintptr (pyobj_ (slot w)) ->
  fst (owns_pyobj w) = Returns true ->
  fst (_unchecked_untagged_pyobj w) = Returns nullptr ->
  fst (pyobj_interpreter w) <> Returns nullptr ->
  pyobj_ (slot w) = 1
  /\ TORCH_INTERNAL_ASSERT (negb (pyobj_ (slot w) =? 0)) w = (Returns tt, w)
  /\ maybe_destroy_pyobj w
     = (Returns tt,
        mkWorld (mkSlot (pyobj_interpreter_ (slot w)) 0)
          (calls w ++ [Decref (pyobj_interpreter_ (slot w)) nullptr true])).
Proof.
  intros Hrange Hown Haddr Hbound.
  assert (Hword : pyobj_ (slot w) = 1).
  { rewrite (split_word _ Hrange).
    rewrite owns_pyobj_run in Hown.
    rewrite unchecked_untagged_pyobj_run in Haddr. cbn [fst] in Hown, Haddr.
    rewrite owns_bit.
    replace (Z.testbit (pyobj_ (slot w)) 0) with true by congruence.
    replace (Z.land (pyobj_ (slot w)) untag_mask) with nullptr by congruence.
    reflexivity. }
  split; [exact Hword|]. split.
  - rewrite Hword. reflexivity.
  - apply (maybe_destroy_pyobj_owning w nullptr Hown Hbound Haddr).
Qed.

Lemma teardown_asserts_on_whole_word_witness :
  (is_uintptr (pyobj_ (slot (bound_world 0x7f00 1)))
   /\ fst (owns_pyobj (bound_world 0x7f00 1)) = Returns true
   /\ fst (_unchecked_untagged_pyobj (bound_world 0x7f00 1)) = Returns nullptr
   /\ fst (pyobj_interpreter (bound_world 0x7f00 1)) <> Returns nullptr)
  /\ (pyobj_ (slot (bound_world 0x7f00 1)) = 1
      /\ TORCH_INTERNAL_ASSERT
           (negb (pyobj_ (slot (bound_world 0x7f00 1)) =? 0))
           (bound_world 0x7f00 1)
         = (Returns tt, bound_world 0x7f00 1)
      /\ maybe_destroy_pyobj (bound_world 0x7f00 1)
         = (Returns tt,
            mkWorld (mkSlot (pyobj_interpreter_ (slot (bound_world 0x7f00 1))) 0)
              (calls (bound_world 0x7f00 1)
               ++ [Decref (pyobj_interpreter_ (slot (bound_world 0x7f00 1)))
                     nullptr true]))).
Proof.
  assert (Hrange : is_uintptr (pyobj_ (slot (bound_world 0x7f00 1))))
    by (unfold is_uintptr; simpl; split; [lia | reflexivity]).
  split.
  - split; [exact Hrange|].
    split; [reflexivity|]. split; [reflexivity | discriminate].
  - apply (teardown_asserts_on_whole_word (bound_world 0x7f00 1) Hrange);
      [reflexivity | reflexivity | discriminate].
Defined.

(** ** Reads *)

(** C5.  [load_pyobj_interpreter] throws, and what it throws is the
    [TORCH_CHECK] error about the missing interpreter, exactly when
    [pyobj_interpreter] returns null; it returns an interpreter exactly when
    [pyobj_interpreter] returns that interpreter and it is not null; and it
    leaves the world as it found it. *)
Theorem load_pyobj_interpreter_fails_iff_unbound (w : World) :
  (fst (load_pyobj_interpreter w) = CheckFailed no_interpreter_msg
   <-> fst (pyobj_interpreter w) = Returns nullptr)
  /\ ((forall p, fst (load_pyobj_interpreter w) <> Returns p)
      <-> fst (pyobj_interpreter w) = Returns nullptr)
  /\ (forall p, fst (load_pyobj_interpreter w) = Returns p
                <-> fst (pyobj_interpreter w) = Returns p /\ p <> nullptr)
  /\ snd (load_pyobj_interpreter w) = w
  /\ snd (pyobj_interpreter w) = w.
Proof.
  rewrite load_pyobj_interpreter_run.
  unfold pyobj_interpreter, pyobj_interpreter__load. cbn [fst snd].
  destruct (Z.eqb_spec (pyobj_interpreter_ (slot w)) nullptr) as [Hnull | Hbound];
    cbn [fst snd].
  - rewrite Hnull. split; [tauto|]. split; [|split; [|tauto]].
    + split; [reflexivity | discriminate].
    + intros p. split; [discriminate | intros [Hp Hne]; congruence].
  - split; [|split; [|split; [|tauto]]].
    + split; [discriminate | congruence].
    + split; [|congruence].
      intros Hnone. contradiction (Hnone _ eq_refl).
    + intros p. split; [intros Hp; split; congruence | tauto].
Qed.

(** C7.  On every slot whose word is a [uintptr_t] value,
    [_unchecked_untagged_pyobj] returns that word with bit 0 cleared, and
    leaves the world as it found it. *)
Theorem unchecked_untagged_pyobj_clears_bit0 (w : World) :
  is_uintptr (pyobj_ (slot w)) ->
  _unchecked_untagged_pyobj w = (Returns (Z.clearbit (pyobj_ (slot w)) 0), w).
Proof.
  intros Hrange. rewrite unchecked_untagged_pyobj_run.
  now rewrite untag_clearbit.
Qed.

(** On a slot just constructed the answer is the null address, not an error. *)
Lemma unchecked_untagged_pyobj_clears_bit0_witness :
  is_uintptr (pyobj_ (slot fresh_world))
  /\ _unchecked_untagged_pyobj fresh_world
     = (Returns (Z.clearbit (pyobj_ (slot fresh_world)) 0), fresh_world).
Proof.
  assert (Hrange : is_uintptr (pyobj_ (slot fresh_world)))
    by (unfold is_uintptr; simpl; split; [lia | reflexivity]).
  split; [exact Hrange|].
  apply (unchecked_untagged_pyobj_clears_bit0 fresh_world Hrange).
Defined.

(** ** The ownership bit *)

(** C3.  On a slot whose word is a [uintptr_t] value, [set_owns_pyobj(b)]
    returns, whatever the spurious failures of the exchange; afterwards the
    bits of the word from bit 1 up are the ones it had, bit 0 is [b],
    [owns_pyobj] answers [b], [_unchecked_untagged_pyobj] answers what it
    answered before, and nothing else in the world has changed. *)
Theorem set_owns_pyobj_updates_only_bit0
    (oracle : list bool) (b : bool) (w : World) :
  is_uintptr (pyobj_ (slot w)) ->
  exists w',
    set_owns_pyobj oracle b w = (Returns tt, w')
    /\ (forall i, 1 <= i ->
                  Z.testbit (pyobj_ (slot w')) i = Z.testbit (pyobj_ (slot w)) i)
    /\ Z.testbit (pyobj_ (slot w')) 0 = b
    /\ owns_pyobj w' = (Returns b, w')
    /\ fst (_unchecked_untagged_pyobj w') = fst (_unchecked_untagged_pyobj w)
    /\ pyobj_interpreter_ (slot w') = pyobj_interpreter_ (slot w)
    /\ calls w' = calls w.
Proof.
  intros Hrange. eexists. split; [apply set_owns_pyobj_run|].
  cbn [set_pyobj_ slot pyobj_ pyobj_interpreter_ calls].
  assert (Hbit0 : Z.testbit (retagged (pyobj_ (slot w)) b) 0 = b)
    by (rewrite retagged_bits by lia; reflexivity).
  split; [|split; [exact Hbit0|split; [|split; [|split; reflexivity]]]].
  - intros i Hi. rewrite retagged_bits by lia.
    destruct (Z.eqb_spec i 0); [lia|].
    destruct (Z.ltb_spec i 64); [apply andb_true_r|].
    rewrite (uintptr_bits_high _ i Hrange) by assumption. reflexivity.
  - rewrite owns_pyobj_run. cbn [set_pyobj_ slot pyobj_].
    now rewrite Hbit0.
  - rewrite !unchecked_untagged_pyobj_run. cbn [fst set_pyobj_ slot pyobj_].
    now rewrite untag_retagged.
Qed.

Lemma set_owns_pyobj_updates_only_bit0_witness :
  is_uintptr (pyobj_ (slot (bound_world 0x7f00 0x1000)))
  /\ exists w',
       set_owns_pyobj [true; false] true (bound_world 0x7f00 0x1000)
       = (Returns tt, w')
       /\ (forall i, 1 <= i ->
             Z.testbit (pyobj_ (slot w')) i
             = Z.testbit (pyobj_ (slot (bound_world 0x7f00 0x1000))) i)
       /\ Z.testbit (pyobj_ (slot w')) 0 = true
       /\ owns_pyobj w' = (Returns true, w')
       /\ fst (_unchecked_untagged_pyobj w')
          = fst (_unchecked_untagged_pyobj (bound_world 0x7f00 0x1000))
       /\ pyobj_interpreter_ (slot w')
          = pyobj_interpreter_ (slot (bound_world 0x7f00 0x1000))
       /\ calls w' = calls (bound_world 0x7f00 0x1000).
Proof.
  assert (Hrange : is_uintptr (pyobj_ (slot (bound_world 0x7f00 0x1000))))
    by (unfold is_uintptr; simpl; split; [lia | reflexivity]).
  split; [exact Hrange|].
  apply (set_owns_pyobj_updates_only_bit0
           [true; false] true (bound_world 0x7f00 0x1000) Hrange).
Defined.

(** C9.  On a slot whose word is a [uintptr_t] value, a second
    [set_owns_pyobj(b)] does what the first did and no more, whatever the
    spurious failures of either; and when [owns_pyobj] already answers [b],
    the call returns with the world as it found it. *)
Theorem set_owns_pyobj_idempotent
    (oracle1 oracle2 : list bool) (b : bool) (w : World) :
  is_uintptr (pyobj_ (slot w)) ->
  set_owns_pyobj oracle2 b (snd (set_owns_pyobj oracle1 b w))
  = set_owns_pyobj oracle1 b w
  /\ (fst (owns_pyobj w) = Returns b ->
      set_owns_pyobj oracle1 b w = (Returns tt, w)).
Proof.
  intros Hrange. split.
  - rewrite !set_owns_pyobj_run. cbn [snd set_pyobj_ slot pyobj_].
    unfold set_pyobj_. cbn [slot pyobj_ pyobj_interpreter_ calls].
    now rewrite retagged_idempotent.
  - rewrite owns_pyobj_run. cbn [fst]. intros Hown.
    rewrite set_owns_pyobj_run, retagged_same by congruence.
    unfold set_pyobj_. now rewrite world_eta.
Qed.

Lemma set_owns_pyobj_idempotent_witness :
  (is_uintptr (pyobj_ (slot (bound_world 0x7f00 0x1001)))
   /\ fst (owns_pyobj (bound_world 0x7f00 0x1001)) = Returns true)
  /\ set_owns_pyobj [true] true
       (snd (set_owns_pyobj [] true (bound_world 0x7f00 0x1001)))
     = set_owns_pyobj [] true (bound_world 0x7f00 0x1001)
  /\ set_owns_pyobj [] true (bound_world 0x7f00 0x1001)
     = (Returns tt, bound_world 0x7f00 0x1001).
Proof.
  assert (Hrange : is_uintptr (pyobj_ (slot (bound_world 0x7f00 0x1001))))
    by (unfold is_uintptr; simpl; split; [lia | reflexivity]).
  assert (Hown : fst (owns_pyobj (bound_world 0x7f00 0x1001)) = Returns true)
    by reflexivity.
  split; [exact (conj Hrange Hown)|].
  destruct (set_owns_pyobj_idempotent [] [true] true
              (bound_world 0x7f00 0x1001) Hrange) as [Htwice Hsame].
  exact (conj Htwice (Hsame Hown)).
Defined.

(** ** Frames and invariants over a life *)

Lemma run_keeps_interpreter (ops : list Op) (w : World) :
  pyobj_interpreter_ (slot (run ops w)) = pyobj_interpreter_ (slot w).
Proof.
  revert w. induction ops as [|op rest IH]; intros w; [reflexivity|].
  simpl. rewrite IH. apply call_keeps_interpreter.
Qed.

Lemma run_keeps_range (ops : list Op) (w : World) :
  is_uintptr (pyobj_ (slot w)) -> is_uintptr (pyobj_ (slot (run ops w))).
Proof.
  revert w. induction ops as [|op rest IH]; intros w Hrange; [assumption|].
  simpl. apply IH. now apply call_keeps_range.
Qed.

(** C6.  Each of the six member functions leaves [pyobj_interpreter_] as it
    found it, the destructor too; so after any sequence of them
    [pyobj_interpreter] returns what it returned before the sequence. *)
Theorem interpreter_field_is_never_written :
  (forall op w,
      pyobj_interpreter_ (slot (snd (call op w))) = pyobj_interpreter_ (slot w))
  /\ (forall w,
         pyobj_interpreter_ (slot (snd (PyObjectSlot_dtor w)))
         = pyobj_interpreter_ (slot w))
  /\ (forall ops w,
         fst (pyobj_interpreter (run ops w)) = fst (pyobj_interpreter w)).
Proof.
  split; [exact call_keeps_interpreter|]. split.
  - intros w. unfold PyObjectSlot_dtor.
    destruct (maybe_destroy_pyobj_world w) as [-> | [_ ->]]; reflexivity.
  - intros ops w. unfold pyobj_interpreter, pyobj_interpreter__load.
    cbn [fst]. now rewrite run_keeps_interpreter.
Qed.

(** C10.  Start from a slot whose word is a [uintptr_t] value (a slot just
    constructed is one) and run any sequence of the six member functions.
    The word is then still a [uintptr_t] value, it is the bitwise or of what
    [_unchecked_untagged_pyobj] returns and of the bit [owns_pyobj] returns,
    and bit 0 of what [_unchecked_untagged_pyobj] returns is clear. *)
Theorem word_is_address_or_tag (ops : list Op) (w0 : World) :
  is_uintptr (pyobj_ (slot w0)) ->
  is_uintptr (pyobj_ (slot (run ops w0)))
  /\ exists pyobj owns,
       _unchecked_untagged_pyobj (run ops w0) = (Returns pyobj, run ops w0)
       /\ owns_pyobj (run ops w0) = (Returns owns, run ops w0)
       /\ pyobj_ (slot (run ops w0)) = Z.lor pyobj (Z.b2z owns)
       /\ Z.testbit pyobj 0 = false.
Proof.
  intros Hrange0.
  pose proof (run_keeps_range ops w0 Hrange0) as Hrange.
  split; [exact Hrange|].
  exists (Z.land (pyobj_ (slot (run ops w0))) untag_mask),
         (negb (Z.land (pyobj_ (slot (run ops w0))) 1 =? 0)).
  split; [reflexivity|]. split; [reflexivity|].
  split; [apply split_word; exact Hrange | apply untag_bit0].
Qed.

Lemma word_is_address_or_tag_witness :
  is_uintptr (pyobj_ (slot fresh_world))
  /\ (is_uintptr (pyobj_ (slot (run busy_life fresh_world)))
      /\ exists pyobj owns,
           _unchecked_untagged_pyobj (run busy_life fresh_world)
           = (Returns pyobj, run busy_life fresh_world)
           /\ owns_pyobj (run busy_life fresh_world)
              = (Returns owns, run busy_life fresh_world)
           /\ pyobj_ (slot (run busy_life fresh_world))
              = Z.lor pyobj (Z.b2z owns)
           /\ Z.testbit pyobj 0 = false).
Proof.
  assert (Hrange : is_uintptr (pyobj_ (slot fresh_world)))
    by (unfold is_uintptr; simpl; split; [lia | reflexivity]).
  split; [exact Hrange|].
  apply (word_is_address_or_tag busy_life fresh_world Hrange).
Defined.

(** * Further properties of the member functions *)

Lemma retagged_retagged x b1 b2 : retagged (retagged x b1) b2 = retagged x b2.
Proof.
  apply Z.bits_inj'. intros i Hi.
  rewrite (retagged_bits (retagged x b1)), !retagged_bits by assumption.
  destruct (Z.eqb_spec i 0); [reflexivity |].
  rewrite <- andb_assoc, andb_diag. reflexivity.
Qed.


(** ** Teardown: when it throws, what it leaves *)

(** X1.  [maybe_destroy_pyobj] throws exactly when [owns_pyobj] answers true
    and [pyobj_interpreter] answers null; what it throws is the internal
    assertion, never a [TORCH_CHECK] error; and when it throws, the slot and
    the trace are as it found them (the word is not cleared). *)
Theorem teardown_throws_iff_owning_unbound (w : World) :
  (fst (maybe_destroy_pyobj w) = InternalAssertFailed
   <-> fst (owns_pyobj w) = Returns true
       /\ fst (pyobj_interpreter w) = Returns nullptr)
  /\ (fst (maybe_destroy_pyobj w) <> Returns tt
      <-> fst (maybe_destroy_pyobj w) = InternalAssertFailed)
  /\ (fst (maybe_destroy_pyobj w) = InternalAssertFailed
      -> snd (maybe_destroy_pyobj w) = w).
Proof.
  rewrite maybe_destroy_pyobj_run, owns_pyobj_run.
  unfold pyobj_interpreter, pyobj_interpreter__load. cbn [fst].
  destruct (Z.testbit (pyobj_ (slot w)) 0);
    [destruct (Z.eqb_spec (pyobj_interpreter_ (slot w)) nullptr) as [Hnull | Hbound]|];
    cbn [fst snd].
  - rewrite Hnull. repeat split; try reflexivity; try discriminate; auto.
  - split; [|split].
    + split; [discriminate | intros [_ Hp]; congruence].
    + split; [intros Hne; now contradiction Hne | discriminate].
    + discriminate.
  - split; [|split].
    + split; [discriminate | intros [Hown _]; discriminate].
    + split; [intros Hne; now contradiction Hne | discriminate].
    + discriminate.
Qed.

(** X2.  When the destructor returns, [owns_pyobj] answers false afterwards.
    If it answered false before, the destructor has changed nothing: the
    address bits stay in the word.  If it answered true before, the word is
    now 0 and the trace is one call longer. *)
Theorem teardown_that_returns_leaves_no_ownership (w : World) :
  fst (PyObjectSlot_dtor w) = Returns tt ->
  fst (owns_pyobj (snd (PyObjectSlot_dtor w))) = Returns false
  /\ (fst (owns_pyobj w) = Returns false -> snd (PyObjectSlot_dtor w) = w)
  /\ (fst (owns_pyobj w) = Returns true ->
      pyobj_ (slot (snd (PyObjectSlot_dtor w))) = 0
      /\ List.length (calls (snd (PyObjectSlot_dtor w)))
         = S (List.length (calls w))).
Proof.
  unfold PyObjectSlot_dtor.
  rewrite maybe_destroy_pyobj_run, !owns_pyobj_run. cbn [fst].
  destruct (Z.testbit (pyobj_ (slot w)) 0) eqn:Hown.
  - destruct (pyobj_interpreter_ (slot w) =? nullptr); cbn [fst snd];
      [discriminate|].
    intros _. split; [reflexivity|]. split; [discriminate|].
    intros _. cbn [slot pyobj_ calls]. split; [reflexivity|].
    rewrite length_app. cbn [List.length]. lia.
  - cbn [fst snd]. intros _. rewrite Hown.
    split; [reflexivity|]. split; [reflexivity | discriminate].
Qed.

Lemma teardown_that_returns_leaves_no_ownership_witness :
  fst (PyObjectSlot_dtor (bound_world 0x7f00 0x1001)) = Returns tt
  /\ (fst (owns_pyobj (snd (PyObjectSlot_dtor (bound_world 0x7f00 0x1001))))
      = Returns false
      /\ (fst (owns_pyobj (bound_world 0x7f00 0x1001)) = Returns false ->
          snd (PyObjectSlot_dtor (bound_world 0x7f00 0x1001))
          = bound_world 0x7f00 0x1001)
      /\ (fst (owns_pyobj (bound_world 0x7f00 0x1001)) = Returns true ->
          pyobj_ (slot (snd (PyObjectSlot_dtor (bound_world 0x7f00 0x1001))))
          = 0
          /\ List.length
               (calls (snd (PyObjectSlot_dtor (bound_world 0x7f00 0x1001))))
             = S (List.length (calls (bound_world 0x7f00 0x1001))))).
Proof.
  split; [reflexivity|].
  apply (teardown_that_returns_leaves_no_ownership (bound_world 0x7f00 0x1001)).
  reflexivity.
Defined.

(** ** The exchange loop *)

(** X3.  The do-while loop may be entered with an [expected] that is not the
    word in the slot (the word changed after the load): the failed exchange
    reloads it, and the loop still returns, with [owns_pyobj] answering [b]
    and [_unchecked_untagged_pyobj] answering the address of the word that
    was in the slot, not that of the stale [expected]. *)
Theorem set_owns_pyobj_loop_retags_the_current_word
    (oracle : list bool) (b : bool) (expected : Z) (w : World) :
  exists w',
    set_owns_pyobj_loop oracle b expected w = (Returns tt, w')
    /\ owns_pyobj w' = (Returns b, w')
    /\ fst (_unchecked_untagged_pyobj w') = fst (_unchecked_untagged_pyobj w)
    /\ pyobj_interpreter_ (slot w') = pyobj_interpreter_ (slot w)
    /\ calls w' = calls w.
Proof.
  eexists. split; [apply set_owns_pyobj_loop_run|].
  split; [|split; [|split; reflexivity]].
  - rewrite owns_pyobj_run. cbn [set_pyobj_ slot pyobj_].
    rewrite retagged_bits by lia. reflexivity.
  - rewrite !unchecked_untagged_pyobj_run. cbn [fst set_pyobj_ slot pyobj_].
    now rewrite untag_retagged.
Qed.

(** X4.  The spurious failures of [compare_exchange_weak] do not show: with
    any oracle [set_owns_pyobj(b)] ends as it does when no attempt fails. *)
Theorem set_owns_pyobj_hides_spurious_failures
    (oracle : list bool) (b : bool) (w : World) :
  set_owns_pyobj oracle b w = set_owns_pyobj [] b w.
Proof. now rewrite !set_owns_pyobj_run. Qed.

(** ** How calls of [set_owns_pyobj] compose, with each other and with the
    destructor *)

(** X5.  The last [set_owns_pyobj] decides: a call with [b2] after a call
    with [b1] ends as the call with [b2] alone would have. *)
Theorem set_owns_pyobj_last_call_wins
    (oracle1 oracle2 : list bool) (b1 b2 : bool) (w : World) :
  set_owns_pyobj oracle2 b2 (snd (set_owns_pyobj oracle1 b1 w))
  = set_owns_pyobj oracle2 b2 w.
Proof.
  rewrite !set_owns_pyobj_run. unfold set_pyobj_.
  cbn [snd slot pyobj_ pyobj_interpreter_ calls].
  now rewrite retagged_retagged.
Qed.

(** X6.  After [set_owns_pyobj(false)] the destructor returns without a call
    and without touching the slot, whether or not an interpreter is bound. *)
Theorem relinquished_slot_is_not_released (oracle : list bool) (w : World) :
  PyObjectSlot_dtor (snd (set_owns_pyobj oracle false w))
  = (Returns tt, snd (set_owns_pyobj oracle false w)).
Proof.
  rewrite set_owns_pyobj_run. cbn [snd]. unfold PyObjectSlot_dtor.
  rewrite maybe_destroy_pyobj_run. cbn [set_pyobj_ slot pyobj_].
  rewrite retagged_bits by lia. reflexivity.
Qed.

(** X7.  After [set_owns_pyobj(true)] on a slot with an interpreter bound, the
    destructor returns after exactly one more call: [decref] through that
    interpreter on the address [_unchecked_untagged_pyobj] reported before
    the ownership was taken; and it leaves the word 0. *)
Theorem owned_slot_is_released_once
    (oracle : list bool) (w : World) (pyobj : ptr) :
  fst (pyobj_interpreter w) <> Returns nullptr ->
  fst (_unchecked_untagged_pyobj w) = Returns pyobj ->
  PyObjectSlot_dtor (snd (set_owns_pyobj oracle true w))
  = (Returns tt,
     mkWorld (mkSlot (pyobj_interpreter_ (slot w)) 0)
       (calls w ++ [Decref (pyobj_interpreter_ (slot w)) pyobj true])).
Proof.
  intros Hbound Hpyobj.
  rewrite set_owns_pyobj_run. cbn [snd]. unfold PyObjectSlot_dtor.
  rewrite (maybe_destroy_pyobj_owning _ pyobj).
  - reflexivity.
  - rewrite owns_pyobj_run. cbn [fst set_pyobj_ slot pyobj_].
    rewrite retagged_bits by lia. reflexivity.
  - exact Hbound.
  - rewrite unchecked_untagged_pyobj_run in *.
    cbn [fst set_pyobj_ slot pyobj_] in *. now rewrite untag_retagged.
Qed.

Lemma owned_slot_is_released_once_witness :
  (fst (pyobj_interpreter (bound_world 0x7f00 0x2000)) <> Returns nullptr
   /\ fst (_unchecked_untagged_pyobj (bound_world 0x7f00 0x2000))
      = Returns 0x2000)
  /\ PyObjectSlot_dtor
       (snd (set_owns_pyobj [true; true; true] true
               (bound_world 0x7f00 0x2000)))
     = (Returns tt,
        mkWorld (mkSlot (pyobj_interpreter_ (slot (bound_world 0x7f00 0x2000))) 0)
          (calls (bound_world 0x7f00 0x2000)
           ++ [Decref (pyobj_interpreter_ (slot (bound_world 0x7f00 0x2000)))
                 0x2000 true])).
Proof.
  split.
  - split; [discriminate | reflexivity].
  - apply (owned_slot_is_released_once
             [true; true; true] (bound_world 0x7f00 0x2000) 0x2000);
      [discriminate | reflexivity].
Defined.

(** ** Over a whole life *)

Lemma call_read_world (op : Op) (w : World) :
  is_read op = true -> snd (call op w) = w.
Proof.
  intros Hop. rewrite call_world. destruct op; try reflexivity; discriminate.
Qed.

(** X8.  A sequence of the four loads ([pyobj_interpreter],
    [_unchecked_untagged_pyobj], [load_pyobj_interpreter], [owns_pyobj])
    leaves the slot and the trace exactly as they were, also when
    [load_pyobj_interpreter] throws on the way. *)
Theorem reads_change_nothing (ops : list Op) (w : World) :
  forallb is_read ops = true -> run ops w = w.
Proof.
  revert w. induction ops as [|op rest IH]; intros w Hops; [reflexivity|].
  simpl in Hops. apply andb_true_iff in Hops as [Hop Hrest].
  simpl. rewrite call_read_world by assumption. now apply IH.
Qed.

Lemma reads_change_nothing_witness :
  forallb is_read reading_life = true
  /\ run reading_life fresh_world = fresh_world.
Proof.
  split; [reflexivity|].
  apply (reads_change_nothing reading_life fresh_world). reflexivity.
Defined.

Lemma call_address (op : Op) (w : World) :
  Z.land (pyobj_ (slot (snd (call op w)))) untag_mask
  = Z.land (pyobj_ (slot w)) untag_mask
  \/ (is_teardown op = true
      /\ Z.land (pyobj_ (slot (snd (call op w)))) untag_mask = nullptr).
Proof.
  rewrite call_world. destruct op; try (left; reflexivity).
  - destruct (maybe_destroy_pyobj_world w) as [-> | [_ ->]];
      [left; reflexivity | right; split; reflexivity].
  - left. cbn [set_pyobj_ slot pyobj_]. apply untag_retagged.
Qed.

(** X9.  As long as the teardown is not called, the address
    [_unchecked_untagged_pyobj] returns does not change: a sequence of the
    five other member functions keeps it, however often the ownership bit is
    set and cleared. *)
Theorem address_is_kept_until_teardown (ops : list Op) (w : World) :
  no_teardown ops = true ->
  fst (_unchecked_untagged_pyobj (run ops w))
  = fst (_unchecked_untagged_pyobj w).
Proof.
  rewrite !unchecked_untagged_pyobj_run. cbn [fst].
  revert w. induction ops as [|op rest IH]; intros w Hops; [reflexivity|].
  simpl in Hops. apply andb_true_iff in Hops as [Hop Hrest].
  apply negb_true_iff in Hop.
  simpl. rewrite IH by assumption.
  destruct (call_address op w) as [Hsame | [Htear _]]; congruence.
Qed.

Lemma address_is_kept_until_teardown_witness :
  no_teardown owning_life = true
  /\ fst (_unchecked_untagged_pyobj (run owning_life (bound_world 0x7f00 0x1000)))
     = fst (_unchecked_untagged_pyobj (bound_world 0x7f00 0x1000)).
Proof.
  split; [reflexivity|].
  apply (address_is_kept_until_teardown
           owning_life (bound_world 0x7f00 0x1000)).
  reflexivity.
Defined.

Lemma run_address (ops : list Op) (w : World) :
  Z.land (pyobj_ (slot (run ops w))) untag_mask
  = Z.land (pyobj_ (slot w)) untag_mask
  \/ Z.land (pyobj_ (slot (run ops w))) untag_mask = nullptr.
Proof.
  revert w. induction ops as [|op rest IH]; intros w; [now left|].
  simpl. destruct (IH (snd (call op w))) as [Hrest | Hrest]; [|now right].
  rewrite Hrest.
  destruct (call_address op w) as [Hsame | [_ Hzero]]; auto.
Qed.

(** X10.  No member function of the unit installs an address: after any
    sequence of the six, [_unchecked_untagged_pyobj] returns what it returned
    before, or null. *)
Theorem address_is_kept_or_cleared (ops : list Op) (w : World) :
  fst (_unchecked_untagged_pyobj (run ops w))
  = fst (_unchecked_untagged_pyobj w)
  \/ fst (_unchecked_untagged_pyobj (run ops w)) = Returns nullptr.
Proof.
  rewrite !unchecked_untagged_pyobj_run. cbn [fst].
  destruct (run_address ops w) as [-> | ->]; auto.
Qed.

(** What one call adds to the trace. *)
Lemma call_released (op : Op) (w : World) :
  exists released,
    calls (snd (call op w)) = calls w ++ released
    /\ Forall (teardown_decref (pyobj_interpreter_ (slot w))) released.
Proof.
  rewrite call_world.
  destruct op; try (exists []; rewrite app_nil_r; split; [reflexivity | constructor]).
  rewrite maybe_destroy_pyobj_run.
  destruct (Z.testbit (pyobj_ (slot w)) 0);
    [destruct (Z.eqb_spec (pyobj_interpreter_ (slot w)) nullptr) as [Hnull | Hbound]|];
    try (exists []; rewrite app_nil_r; split; [reflexivity | constructor]).
  eexists. split; [reflexivity|].
  constructor; [|constructor].
  cbn [teardown_decref]. repeat split; [assumption | apply untag_bit0].
Qed.

Lemma run_released (ops : list Op) (w : World) :
  exists released,
    calls (run ops w) = calls w ++ released
    /\ Forall (teardown_decref (pyobj_interpreter_ (slot w))) released.
Proof.
  revert w. induction ops as [|op rest IH]; intros w.
  - exists []. rewrite app_nil_r. split; [reflexivity | constructor].
  - simpl. destruct (call_released op w) as (first & Hfirst & Hwf1).
    destruct (IH (snd (call op w))) as (others & Hothers & Hwf2).
    rewrite call_keeps_interpreter in Hwf2.
    exists (first ++ others). split.
    + rewrite Hothers, Hfirst. now rewrite app_assoc.
    + apply Forall_app. now split.
Qed.

(** X11.  Whatever sequence of the six member functions runs, the trace only
    grows, and every call added to it is a [decref] through the interpreter
    bound to the slot, which is not null, on an address with the tag bit
    clear, with [has_pyobj_slot] true. *)
Theorem every_call_is_a_teardown_decref (ops : list Op) (w : World) :
  exists released,
    calls (run ops w) = calls w ++ released
    /\ Forall (teardown_decref (pyobj_interpreter_ (slot w))) released.
Proof. exact (run_released ops w). Qed.

Lemma no_teardown_decref_through_null (released : list Event) :
  Forall (teardown_decref nullptr) released -> released = [].
Proof.
  destruct released as [|[through pyobj has_slot] others]; intros Hwf;
    [reflexivity|].
  inversion Hwf as [|e l Hhead Htail]. cbn [teardown_decref] in Hhead.
  destruct Hhead as (Hthrough & Hne & _). now contradiction Hne.
Qed.

Lemma unbound_run_keeps_calls (ops : list Op) (w : World) :
  pyobj_interpreter_ (slot w) = nullptr -> calls (run ops w) = calls w.
Proof.
  intros Hunbound.
  destruct (run_released ops w) as (released & -> & Hwf).
  rewrite Hunbound in Hwf.
  rewrite (no_teardown_decref_through_null _ Hwf). apply app_nil_r.
Qed.



Lemma call_owned_budget (op : Op) (w : World) :
  (List.length (calls (snd (call op w))) + owned_references (snd (call op w))
   <= List.length (calls w) + owned_references w
      + (if takes_ownership op then 1 else 0))%nat.
Proof.
  rewrite call_world. unfold owned_references. rewrite !owns_pyobj_run.
  cbn [fst].
  destruct op as [| | | | |oracle b]; cbn [takes_ownership]; try lia.
  - rewrite maybe_destroy_pyobj_run.
    destruct (Z.testbit (pyobj_ (slot w)) 0) eqn:Hown;
      [destruct (pyobj_interpreter_ (slot w) =? nullptr)|];
      cbn [snd slot pyobj_ calls]; rewrite ?Hown; try lia.
    rewrite length_app, Z.testbit_0_l. cbn [List.length]. lia.
  - cbn [set_pyobj_ slot pyobj_ calls].
    rewrite retagged_bits by lia. cbn [Z.eqb].
    destruct b, (Z.testbit (pyobj_ (slot w)) 0); lia.
Qed.

(** X13.  The slot releases no more references than it was given: over any
    sequence of the six member functions, the [decref] calls made plus the
    reference still owned at the end are at most the reference owned at the
    start plus the number of calls [set_owns_pyobj(true)]. *)
Theorem releases_are_bounded_by_ownership_taken (ops : list Op) (w : World) :
  (List.length (calls (run ops w)) + owned_references (run ops w)
   <= List.length (calls w) + owned_references w + ownership_taken ops)%nat.
Proof.
  revert w. induction ops as [|op rest IH]; intros w.
  - unfold ownership_taken. simpl. lia.
  - simpl run. specialize (IH (snd (call op w))).
    pose proof (call_owned_budget op w) as Hstep.
    unfold ownership_taken in *. simpl filter.
    destruct (takes_ownership op); cbn [List.length]; lia.
Qed.

(** X14.  Nothing in the unit binds a slot.  After the constructor and any
    sequence of the six member functions, [pyobj_interpreter] and
    [_unchecked_untagged_pyobj] still return null, [load_pyobj_interpreter]
    still throws its [TORCH_CHECK] error, and no call has been made. *)
Theorem constructed_slot_stays_unbound (ops : list Op) :
  fst (pyobj_interpreter (run ops (mkWorld PyObjectSlot_ctor [])))
  = Returns nullptr
  /\ fst (_unchecked_untagged_pyobj (run ops (mkWorld PyObjectSlot_ctor [])))
     = Returns nullptr
  /\ fst (load_pyobj_interpreter (run ops (mkWorld PyObjectSlot_ctor [])))
     = CheckFailed no_interpreter_msg
  /\ calls (run ops (mkWorld PyObjectSlot_ctor [])) = [].
Proof.
  pose proof (run_keeps_interpreter ops (mkWorld PyObjectSlot_ctor []))
    as Hinterp.
  cbn [slot PyObjectSlot_ctor pyobj_interpreter_] in Hinterp.
  split; [|split; [|split]].
  - unfold pyobj_interpreter, pyobj_interpreter__load. cbn [fst].
    now rewrite Hinterp.
  - rewrite unchecked_untagged_pyobj_run. cbn [fst].
    destruct (run_address ops (mkWorld PyObjectSlot_ctor [])) as [-> | ->];
      reflexivity.
  - rewrite load_pyobj_interpreter_run, Hinterp. reflexivity.
  - now rewrite unbound_run_keeps_calls.
Qed.
